(** * ESP codec (src/codecs/basic/cd_esp.cc)

    A shallow embedding of [EspCodec::decode] and of the statistics hooks of
    the ESP codec, together with the properties of the decoder that the
    design document states.

    Conventions.
    - C integers are [Z]; every narrowing conversion of the source is written
      out ([wrap16] for the [uint16_t]/[u_short] casts and stores).
    - Pointers are addresses in [Z]; the packet bytes live in a [Memory]
      block and every dereference goes through the bounds-checked [load],
      so an out-of-range read makes [decode] return [None].
    - The objects [decode] writes through pointers and references ([Packet *p],
      [lyr_len], [next_prot_id]), the decoder event queue and the thread-local
      peg counters are threaded explicitly in a [State]. *)

From Stdlib Require Import ZArith List Bool Lia String.
From Stdlib Require Import Strings.Byte.
Import ListNotations.

Local Open Scope Z_scope.

(** ** Machine integers *)

Definition wrap16 (z : Z) : Z := z mod 2 ^ 16.

Definition u8 (b : byte) : Z := Z.of_N (Byte.to_N b).


(** ** Packet memory *)

Definition ptr := Z.

(** One contiguous block of packet bytes starting at address [base]. *)
Record Memory : Type := mkMemory {
  base  : ptr;
  bytes : list byte
}.

(** [*q] for a [const uint8_t *q]: defined only inside the block. *)
Definition load (m : Memory) (q : ptr) : option Z :=
  if q <? base m then None
  else option_map u8 (nth_error (bytes m) (Z.to_nat (q - base m))).

(** The [len] bytes starting at [q] all lie inside the block. *)
Definition readable (m : Memory) (q : ptr) (len : Z) : Prop :=
  base m <= q /\ q + len <= base m + Z.of_nat (List.length (bytes m)).


(** ** Data *)

(* ESP constants *)
Definition ESP_PROT_ID : Z := 50.
Definition ESP_HEADER_LEN : Z := 8.
Definition ESP_AUTH_DATA_LEN : Z := 12.
Definition ESP_TRAILER_LEN : Z := 2.

Record CdPegs : Type := mkCdPegs {
  processed : Z;
  discards  : Z
}.

Definition peg_names : list string :=
  [ "NameCodec_processed"%string; "NameCodec_discards"%string ].

(** The fields of [Packet] that the codec touches: [packet_flags] is a
    [uint32_t] bit set, [data] a pointer into the packet and [dsize] a
    [uint16_t] (the struct is declared outside this file; the source casts
    to [uint16_t] and [u_short] before storing into [dsize]). *)
Record Packet : Type := mkPacket {
  packet_flags : Z;
  data  : ptr;
  dsize : Z
}.

(** Everything a call of [decode] can write: the packet [*p], the two
    reference parameters, the queue of decoder events and the thread-local
    [counts]. *)
Record State : Type := mkState {
  p            : Packet;
  lyr_len      : Z;
  next_prot_id : Z;
  events       : list Z;
  counts       : CdPegs
}.

Definition set_data (q : ptr) (s : State) : State :=
  mkState (mkPacket (packet_flags (p s)) q (dsize (p s)))
          (lyr_len s) (next_prot_id s) (events s) (counts s).

Definition set_dsize (n : Z) (s : State) : State :=
  mkState (mkPacket (packet_flags (p s)) (data (p s)) n)
          (lyr_len s) (next_prot_id s) (events s) (counts s).

(** [p->packet_flags |= mask] *)
Definition or_packet_flags (mask : Z) (s : State) : State :=
  mkState (mkPacket (Z.lor (packet_flags (p s)) mask) (data (p s)) (dsize (p s)))
          (lyr_len s) (next_prot_id s) (events s) (counts s).

Definition set_lyr_len (n : Z) (s : State) : State :=
  mkState (p s) n (next_prot_id s) (events s) (counts s).

Definition set_next_prot_id (n : Z) (s : State) : State :=
  mkState (p s) (lyr_len s) n (events s) (counts s).

(** Modelled from the spec: [codec_events::decoder_event] (declared in
    codecs/codec_events.h, not part of this file) is the fire-and-forget
    [emit(event_kind, packet)] interface; a call queues the event id. *)
Definition decoder_event (sid : Z) (s : State) : State :=
  mkState (p s) (lyr_len s) (next_prot_id s) (events s ++ [sid]) (counts s).

(** ** The decoder *)

(** The four outcomes of a call. *)
Inductive Outcome : Type := Rejected | Opaque | Decodable | Ambiguous.

Section Decode.

(** [ScESPDecoding()]: the configuration flag read from snort.h. *)
Variable ScESPDecoding : bool.
(** [PacketManager::has_codec]: the registry of protocol decoders. *)
Variable has_codec : Z -> bool.
(** Bit masks and the event id, defined in headers outside this file. *)
Variable PKT_TRUST : Z.
Variable PKT_UNSURE_ENCAP : Z.
Variable DECODE_ESP_HEADER_TRUNC : Z.

(** [EspCodec::decode].  The result is [None] when a dereference leaves
    the packet memory, and otherwise the returned [bool] with the final
    state. *)
Definition decode (mem : Memory) (raw_pkt : ptr) (len : Z) (s : State)
  : option (bool * State) :=
  if negb ScESPDecoding then Some (false, s)
  else if len <? ESP_HEADER_LEN + ESP_AUTH_DATA_LEN + ESP_TRAILER_LEN then
    (* Truncated ESP traffic. *)
    let s := decoder_event DECODE_ESP_HEADER_TRUNC s in
    let s := set_data raw_pkt s in
    let s := set_dsize (wrap16 len) s in
    Some (false, s)
  else
    let esp_payload := raw_pkt + ESP_HEADER_LEN in
    let s := set_lyr_len
               (wrap16 (ESP_HEADER_LEN + ESP_AUTH_DATA_LEN + ESP_TRAILER_LEN)) s in
    match load mem (esp_payload + len - lyr_len s) with
    | None => None
    | Some pad_length =>
      match load mem (esp_payload + len + 1 - lyr_len s) with
      | None => None
      | Some next_byte =>
        let s := set_next_prot_id next_byte s in
        if pad_length <? len then
          let s := set_lyr_len (wrap16 (lyr_len s + pad_length)) s in
          if negb (has_codec (next_prot_id s)) then
            Some (true, or_packet_flags PKT_UNSURE_ENCAP s)
          else
            let s := or_packet_flags PKT_TRUST s in
            let s := set_data esp_payload s in
            let s := set_dsize (wrap16 (wrap16 len - lyr_len s)) s in
            Some (true, s)
        else
          let s := or_packet_flags PKT_TRUST s in
          let s := set_data esp_payload s in
          let s := set_dsize (wrap16 (wrap16 len - lyr_len s)) s in
          let s := set_next_prot_id (-1) s in
          Some (true, s)
      end
    end.

(** The design document's outcome of a call.  The source has no such value;
    it is read off what the caller observes: the returned flag, the
    next-protocol id (the sentinel [-1] for "none") and the registry. *)
Definition outcome (ret : bool) (s : State) : Outcome :=
  if negb ret then Rejected
  else if next_prot_id s =? -1 then Opaque
  else if has_codec (next_prot_id s) then Decodable
  else Ambiguous.

End Decode.

(** [mask] is set in the packet's flags. *)
Definition flag_set (mask : Z) (s : State) : bool :=
  Z.land (packet_flags (p s)) mask =? mask.

(** ** The statistics snapshot hook *)

(** A [std::vector<PegCount>] object: a vector holding its elements, or an
    object whose own representation was overwritten with the raw bytes of a
    [CdPegs] (what [memcpy(&v, &counts, sizeof(CdPegs))] leaves behind: the
    copy targets the vector object, not its element storage). *)
Inductive PegVector : Type :=
| Elements (v : list Z)
| Overwritten (raw : CdPegs).

(** The vector objects that [stats] and its caller hold. *)
Inductive VecObj : Type :=
| CountsVec (v : PegVector)
| NamesVec (l : list string).

(** The objects alive, by location; the locations from [next_loc] on are
    free. *)
Record Store : Type := mkStore {
  next_loc : nat;
  cells    : nat -> option VecObj
}.

Definition store_alloc (o : VecObj) (h : Store) : nat * Store :=
  (next_loc h,
   mkStore (S (next_loc h))
           (fun l => if Nat.eqb l (next_loc h) then Some o else cells h l)).

Definition store_write (l : nat) (o : VecObj) (h : Store) : Store :=
  mkStore (next_loc h) (fun k => if Nat.eqb k l then Some o else cells h k).

Definition store_drop (l : nat) (h : Store) : Store :=
  mkStore (next_loc h) (fun k => if Nat.eqb k l then None else cells h k).

(** [stats(std::vector<PegCount> g_peg_counts, std::vector<const char*>
    g_peg_names)], called on the caller's vectors at [arg_counts] and
    [arg_names].  Both parameters are passed by value: they are new objects,
    copies of the caller's, and the body writes those.  At return they are
    destroyed; the counts parameter then holds [processed] where its storage
    pointer was and releases that address, so the call returns only when
    [processed] is 0.  The result is [None] when the call does not return
    (or is not given two vectors). *)
Definition stats (counts : CdPegs) (arg_counts arg_names : nat) (h : Store)
  : option Store :=
  match cells h arg_counts, cells h arg_names with
  | Some (CountsVec (Elements v)), Some (NamesVec ns) =>
    let (g_peg_counts, h) := store_alloc (CountsVec (Elements v)) h in
    let (g_peg_names, h) := store_alloc (NamesVec ns) h in
    (* std::memcpy(&g_peg_counts, &counts, sizeof(CdPegs)); *)
    let h := store_write g_peg_counts (CountsVec (Overwritten counts)) h in
    (* g_peg_names.insert(g_peg_names.end(), peg_names.begin(), peg_names.end()); *)
    let h := store_write g_peg_names (NamesVec (ns ++ peg_names)) h in
    if processed counts =? 0
    then Some (store_drop g_peg_names (store_drop g_peg_counts h))
    else None
  | _, _ => None
  end.

(** [get_protocol_ids(std::vector<uint16_t>& v)]: the sibling hook takes its
    vector by reference, and the caller sees the id pushed. *)
Definition get_protocol_ids (v : list Z) : list Z := v ++ [ESP_PROT_ID].

(** ** The statistics sum hook *)

(** [PegCount] is a 64-bit unsigned counter. *)
Definition wrap64 (z : Z) : Z := z mod 2 ^ 64.

(** The cast of [&c] to a [PegCount] pointer: a [CdPegs] seen as an array of
    two counters, and back. *)
Definition pegs_array (c : CdPegs) : list Z := [processed c; discards c].

Definition array_pegs (l : list Z) : CdPegs :=
  mkCdPegs (nth 0 l 0) (nth 1 l 0).

(** Modelled from the spec: [sum_stats] (declared outside this file) folds the
    first [n] counters of a worker into the global totals:
    [sums[i] += counts[i]] for [i < n]. *)
Fixpoint sum_stats (sums tcounts : list Z) (n : nat) : list Z :=
  match n, sums, tcounts with
  | S n', g :: gs, c :: cs => wrap64 (g + c) :: sum_stats gs cs n'
  | _, _, _ => sums
  end.

(** The two static counter blocks of the file: the thread-local [counts]
    and the global [gcounts]. *)
Record Pegs : Type := mkPegs {
  t_counts : CdPegs;
  gcounts  : CdPegs
}.

(** [sum()]: fold the thread-local counters into the totals, then
    [memset(&counts, 0, sizeof(counts))]. *)
Definition sum (st : Pegs) : Pegs :=
  let g := sum_stats (pegs_array (gcounts st)) (pegs_array (t_counts st))
                     (List.length peg_names) in
  mkPegs (mkCdPegs 0 0) (array_pegs g).

(** The sum of a total and its thread-local counter, modulo 2^64. *)
Definition peg_total (g c : Z) : Z := wrap64 (g + c).

(** ** A worker: calls of [decode] and [sum] in any order *)

Inductive Call : Type :=
| CallDecode (mem : Memory) (raw_pkt : ptr) (len : Z)
| CallSum.

Section Worker.

Variable ScESPDecoding : bool.
Variable has_codec : Z -> bool.
Variable PKT_TRUST : Z.
Variable PKT_UNSURE_ENCAP : Z.
Variable DECODE_ESP_HEADER_TRUNC : Z.

(** One call on the worker's state [s] (whose [counts] is the thread-local
    block) and the global totals [g]. *)
Definition do_call (c : Call) (w : State * CdPegs) : option (State * CdPegs) :=
  let (s, g) := w in
  match c with
  | CallDecode mem raw_pkt len =>
    match decode ScESPDecoding has_codec PKT_TRUST PKT_UNSURE_ENCAP
                 DECODE_ESP_HEADER_TRUNC mem raw_pkt len s with
    | Some (_, s') => Some (s', g)
    | None => None
    end
  | CallSum =>
    let st := sum (mkPegs (counts s) g) in
    Some (mkState (p s) (lyr_len s) (next_prot_id s) (events s) (t_counts st),
          gcounts st)
  end.

Fixpoint do_calls (cs : list Call) (w : State * CdPegs)
  : option (State * CdPegs) :=
  match cs with
  | [] => Some w
  | c :: cs' =>
    match do_call c w with
    | Some w' => do_calls cs' w'
    | None => None
    end
  end.

End Worker.

(** ** Sample inputs *)

(** An [n + 14]-byte packet at address 4096 whose pad-length byte is [pad]
    and whose next-header byte is [nh]; all other bytes are zero. *)
Definition esp_packet (n : nat) (pad nh : byte) : Memory :=
  mkMemory 4096 (repeat x00 n ++ [pad; nh] ++ repeat x00 12).

Definition fresh_state : State :=
  mkState (mkPacket 0 0 0) 0 0 [] (mkCdPegs 0 0).

(** A caller holding an empty counts vector at location 0 and an empty names
    vector at location 1. *)
Definition empty_vectors : Store :=
  mkStore 2 (fun l => match l with
                      | O => Some (CountsVec (Elements []))
                      | S O => Some (NamesVec [])
                      | _ => None
                      end).

(** A registry that knows TCP (6) and UDP (17) only. *)
Definition tcp_udp_registry (id : Z) : bool := (id =? 6) || (id =? 17).

(** ** Facts about machine integers and memory *)

Lemma u8_range (b : byte) : 0 <= u8 b <= 255.
Proof.
  unfold u8. pose proof (Byte.to_N_bounded b) as Hb. lia.
Qed.

Lemma wrap16_small (z : Z) : 0 <= z < 65536 -> wrap16 z = z.
Proof.
  intros Hz. unfold wrap16. change (2 ^ 16) with 65536.
  apply Z.mod_small. exact Hz.
Qed.

Lemma wrap16_range (z : Z) : 0 <= wrap16 z < 65536.
Proof.
  unfold wrap16. change (2 ^ 16) with 65536.
  apply Z.mod_pos_bound. lia.
Qed.

Lemma load_in_range (m : Memory) (q : ptr) (len off : Z) :
  readable m q len -> 0 <= off < len ->
  exists b, load m (q + off) = Some (u8 b).
Proof.
  intros [Hlo Hhi] Hoff. unfold load.
  destruct (Z.ltb_spec (q + off) (base m)) as [Hlt | _]; [lia |].
  destruct (nth_error (bytes m) (Z.to_nat (q + off - base m))) as [b |] eqn:Hn.
  - exists b. reflexivity.
  - apply nth_error_None in Hn. lia.
Qed.

Lemma load_byte_range (m : Memory) (q : ptr) (v : Z) :
  load m q = Some v -> 0 <= v <= 255.
Proof.
  unfold load. destruct (q <? base m); [discriminate |].
  destruct (nth_error (bytes m) (Z.to_nat (q - base m))) as [b |];
    simpl; [| discriminate].
  intros Hv. injection Hv as <-. apply u8_range.
Qed.

Lemma land_lor_same (f m : Z) : Z.land (Z.lor f m) m = m.
Proof.
  apply Z.bits_inj'. intros n _.
  rewrite Z.land_spec, Z.lor_spec.
  destruct (Z.testbit f n), (Z.testbit m n); reflexivity.
Qed.

Lemma land_lor_other (f m k : Z) :
  Z.land m k = 0 -> Z.land (Z.lor f m) k = Z.land f k.
Proof.
  intros Hd. rewrite Z.land_lor_distr_l, Hd. apply Z.lor_0_r.
Qed.

Lemma testbit_lor_mono (f m n : Z) :
  Z.testbit f n = true -> Z.testbit (Z.lor f m) n = true.
Proof.
  intros Hb. rewrite Z.lor_spec, Hb. reflexivity.
Qed.

(** [|=] on [uint32_t] values needs no wrap-around. *)
Lemma lor_u32 (f m : Z) :
  0 <= f < 2 ^ 32 -> 0 <= m < 2 ^ 32 -> 0 <= Z.lor f m < 2 ^ 32.
Proof.
  intros Hf Hm.
  assert (Hnn : 0 <= Z.lor f m) by (apply Z.lor_nonneg; lia).
  split; [exact Hnn |].
  destruct (Z.eq_dec (Z.lor f m) 0) as [-> | Hne]; [reflexivity |].
  apply Z.log2_lt_pow2; [lia |].
  rewrite Z.log2_lor by lia.
  apply Z.max_lub_lt.
  - destruct (Z.eq_dec f 0) as [-> | Hf0]; [reflexivity |].
    apply Z.log2_lt_pow2; lia.
  - destruct (Z.eq_dec m 0) as [-> | Hm0]; [reflexivity |].
    apply Z.log2_lt_pow2; lia.
Qed.

(** ** Properties of [decode] *)

Section DecodeFacts.

Variable ScESPDecoding : bool.
Variable has_codec : Z -> bool.
Variable PKT_TRUST : Z.
Variable PKT_UNSURE_ENCAP : Z.
Variable DECODE_ESP_HEADER_TRUNC : Z.

Local Abbreviation run :=
  (decode ScESPDecoding has_codec PKT_TRUST PKT_UNSURE_ENCAP
          DECODE_ESP_HEADER_TRUNC).
Local Abbreviation seen := (outcome has_codec).

Lemma decode_disabled (mem : Memory) (raw_pkt len : Z) (s : State) :
  ScESPDecoding = false -> run mem raw_pkt len s = Some (false, s).
Proof.
  intros Hoff. unfold decode. rewrite Hoff. reflexivity.
Qed.

Lemma decode_short (mem : Memory) (raw_pkt len : Z) (s : State) :
  ScESPDecoding = true -> len < 22 ->
  run mem raw_pkt len s =
  Some (false,
        mkState (mkPacket (packet_flags (p s)) raw_pkt (wrap16 len))
                (lyr_len s) (next_prot_id s)
                (events s ++ [DECODE_ESP_HEADER_TRUNC]) (counts s)).
Proof.
  intros Hon Hlen. unfold decode. rewrite Hon. simpl negb. cbv iota.
  change (ESP_HEADER_LEN + ESP_AUTH_DATA_LEN + ESP_TRAILER_LEN) with 22.
  destruct (Z.ltb_spec len 22) as [_ | Hge]; [| lia].
  reflexivity.
Qed.

(** The branch structure of an enabled call on at least 22 bytes, in terms
    of the two bytes read from the tail. *)
Lemma decode_long (mem : Memory) (raw_pkt len : Z) (s : State) (pad nh : Z) :
  ScESPDecoding = true -> 22 <= len ->
  load mem (raw_pkt + 8 + (len - 22)) = Some pad ->
  load mem (raw_pkt + 8 + (len - 22) + 1) = Some nh ->
  run mem raw_pkt len s =
  Some (true,
        if pad <? len then
          if has_codec nh then
            mkState (mkPacket (Z.lor (packet_flags (p s)) PKT_TRUST)
                              (raw_pkt + 8)
                              (wrap16 (wrap16 len - wrap16 (22 + pad))))
                    (wrap16 (22 + pad)) nh (events s) (counts s)
          else
            mkState (mkPacket (Z.lor (packet_flags (p s)) PKT_UNSURE_ENCAP)
                              (data (p s)) (dsize (p s)))
                    (wrap16 (22 + pad)) nh (events s) (counts s)
        else
          mkState (mkPacket (Z.lor (packet_flags (p s)) PKT_TRUST)
                            (raw_pkt + 8) (wrap16 (wrap16 len - 22)))
                  22 (-1) (events s) (counts s)).
Proof.
  intros Hon Hlen Hpad Hnh. unfold decode. rewrite Hon. simpl negb. cbv iota.
  change (ESP_HEADER_LEN + ESP_AUTH_DATA_LEN + ESP_TRAILER_LEN) with 22.
  destruct (Z.ltb_spec len 22) as [Hlt | _]; [lia |].
  change (wrap16 22) with 22. change ESP_HEADER_LEN with 8.
  cbn [lyr_len set_lyr_len p next_prot_id events counts].
  replace (raw_pkt + 8 + len - 22) with (raw_pkt + 8 + (len - 22)) by lia.
  replace (raw_pkt + 8 + len + 1 - 22) with (raw_pkt + 8 + (len - 22) + 1) by lia.
  rewrite Hpad, Hnh.
  cbn [lyr_len set_lyr_len set_next_prot_id p next_prot_id events counts].
  destruct (pad <? len); [destruct (has_codec nh) |]; reflexivity.
Qed.

(** Conversely, an enabled call on at least 22 bytes that returns has read
    both tail bytes. *)
Lemma decode_long_inv (mem : Memory) (raw_pkt len : Z) (s s' : State)
      (ret : bool) :
  ScESPDecoding = true -> 22 <= len ->
  run mem raw_pkt len s = Some (ret, s') ->
  exists pad nh,
    load mem (raw_pkt + 8 + (len - 22)) = Some pad /\
    load mem (raw_pkt + 8 + (len - 22) + 1) = Some nh.
Proof.
  intros Hon Hlen. unfold decode. rewrite Hon. simpl negb. cbv iota.
  change (ESP_HEADER_LEN + ESP_AUTH_DATA_LEN + ESP_TRAILER_LEN) with 22.
  destruct (Z.ltb_spec len 22) as [Hlt | _]; [lia |].
  change (wrap16 22) with 22. change ESP_HEADER_LEN with 8.
  cbn [lyr_len set_lyr_len].
  replace (raw_pkt + 8 + len - 22) with (raw_pkt + 8 + (len - 22)) by lia.
  replace (raw_pkt + 8 + len + 1 - 22) with (raw_pkt + 8 + (len - 22) + 1) by lia.
  destruct (load mem (raw_pkt + 8 + (len - 22))) as [pad |]; [| discriminate].
  destruct (load mem (raw_pkt + 8 + (len - 22) + 1)) as [nh |]; [| discriminate].
  intros _. exists pad, nh. split; reflexivity.
Qed.

(** X14: the size stored on the Decodable branch, for every length and pad
    length: the two narrowing conversions of
    [p->dsize = (u_short) len - lyr_len]. *)
Lemma decode_decodable_dsize (mem : Memory) (raw_pkt len : Z) (s : State)
      (pad nh : Z) :
  ScESPDecoding = true -> 22 <= len ->
  load mem (raw_pkt + 8 + (len - 22)) = Some pad ->
  load mem (raw_pkt + 8 + (len - 22) + 1) = Some nh ->
  pad < len -> has_codec nh = true ->
  exists s',
    run mem raw_pkt len s = Some (true, s') /\
    dsize (p s') = (len mod 65536 - (22 + pad)) mod 65536.
Proof.
  intros Hon Hlen Hpad Hnh Hlt Hreg.
  pose proof (load_byte_range _ _ _ Hpad) as Hpr.
  rewrite (decode_long mem raw_pkt len s _ _ Hon Hlen Hpad Hnh).
  destruct (Z.ltb_spec pad len) as [_ | Hge]; [| lia].
  rewrite Hreg. eexists. split; [reflexivity |].
  cbn [dsize p]. rewrite (wrap16_small (22 + pad)) by lia.
  reflexivity.
Qed.

(** With [len] readable bytes, the two tail reads succeed. *)
Lemma tail_loads (mem : Memory) (raw_pkt len : Z) :
  22 <= len -> readable mem raw_pkt len ->
  exists pad nh,
    load mem (raw_pkt + 8 + (len - 22)) = Some pad /\
    load mem (raw_pkt + 8 + (len - 22) + 1) = Some nh /\
    0 <= pad <= 255 /\ 0 <= nh <= 255.
Proof.
  intros Hlen Hrd.
  destruct (load_in_range mem raw_pkt len (len - 14) Hrd) as [b1 H1]; [lia |].
  destruct (load_in_range mem raw_pkt len (len - 13) Hrd) as [b2 H2]; [lia |].
  exists (u8 b1), (u8 b2).
  replace (raw_pkt + 8 + (len - 22)) with (raw_pkt + (len - 14)) by lia.
  replace (raw_pkt + (len - 14) + 1) with (raw_pkt + (len - 13)) by lia.
  repeat split; try assumption; apply u8_range.
Qed.

(** C3: with ESP decoding enabled and fewer than 22 bytes, the call queues
    the "ESP header truncated" event exactly once, points the payload view at
    the whole buffer ([data = raw_pkt], [dsize = len]) and returns [false]. *)
Theorem decode_truncated (mem : Memory) (raw_pkt len : Z) (s : State) :
  ScESPDecoding = true -> 0 <= len < 22 ->
  exists s',
    run mem raw_pkt len s = Some (false, s') /\
    events s' = events s ++ [DECODE_ESP_HEADER_TRUNC] /\
    data (p s') = raw_pkt /\
    dsize (p s') = len /\
    seen false s' = Rejected.
Proof.
  intros Hon [H0 Hlt].
  rewrite (decode_short mem raw_pkt len s Hon Hlt).
  eexists. split; [reflexivity |]. cbn [events data dsize p].
  rewrite wrap16_small by lia.
  repeat split.
Qed.

(** C4: on a readable buffer the call returns [false] exactly when ESP
    decoding is disabled or [len < 22]; in every other case it returns
    [true] with the consumed length and the next-protocol id read from the
    tail, or with the sentinel [-1] on the opaque branch. *)
Theorem decode_false_iff (mem : Memory) (raw_pkt len : Z) (s : State) :
  readable mem raw_pkt len ->
  exists ret s',
    run mem raw_pkt len s = Some (ret, s') /\
    (ret = false <-> ScESPDecoding = false \/ len < 22) /\
    (ret = true ->
     exists pad nh,
       load mem (raw_pkt + 8 + (len - 22)) = Some pad /\
       load mem (raw_pkt + 8 + (len - 22) + 1) = Some nh /\
       ((pad < len /\ lyr_len s' = 22 + pad /\ next_prot_id s' = nh) \/
        (len <= pad /\ lyr_len s' = 22 /\ next_prot_id s' = -1))).
Proof.
  intros Hrd.
  destruct (Bool.bool_dec ScESPDecoding true) as [Hon | Hon];
    [| apply Bool.not_true_is_false in Hon].
  - destruct (Z.lt_ge_cases len 22) as [Hlt | Hge].
    + rewrite (decode_short mem raw_pkt len s Hon Hlt).
      do 2 eexists. split; [reflexivity |]. split.
      * split; [intros _; right; exact Hlt | reflexivity].
      * discriminate.
    + destruct (tail_loads mem raw_pkt len Hge Hrd)
        as (pad & nh & Hpad & Hnh & Hpr & Hnr).
      rewrite (decode_long mem raw_pkt len s pad nh Hon Hge Hpad Hnh).
      do 2 eexists. split; [reflexivity |]. split.
      * split; [discriminate | intros [Hd | Hl]; [congruence | lia]].
      * intros _. exists pad, nh. split; [exact Hpad |]. split; [exact Hnh |].
        destruct (Z.ltb_spec pad len) as [Hpl | Hpl].
        -- left. split; [exact Hpl |].
           destruct (has_codec nh); cbn [lyr_len next_prot_id];
             rewrite wrap16_small by lia; split; reflexivity.
        -- right. cbn [lyr_len next_prot_id]. repeat split. exact Hpl.
  - rewrite (decode_disabled mem raw_pkt len s Hon).
    do 2 eexists. split; [reflexivity |]. split.
    + split; [intros _; left; exact Hon | reflexivity].
    + discriminate.
Qed.

(** C5: with at least 22 bytes, a pad-length byte below [len] and no decoder
    registered for the next-header byte, the call sets [PKT_UNSURE_ENCAP],
    leaves [data] and [dsize] as they were, and still returns [true] with
    consumed length [22 + pad_length]. *)
Theorem decode_ambiguous (mem : Memory) (raw_pkt len : Z) (s : State)
        (pad_length next_protocol_id : Z) :
  ScESPDecoding = true ->
  22 <= len ->
  load mem (raw_pkt + 8 + (len - 22)) = Some pad_length ->
  load mem (raw_pkt + 8 + (len - 22) + 1) = Some next_protocol_id ->
  pad_length < len ->
  has_codec next_protocol_id = false ->
  exists s',
    run mem raw_pkt len s = Some (true, s') /\
    flag_set PKT_UNSURE_ENCAP s' = true /\
    data (p s') = data (p s) /\
    dsize (p s') = dsize (p s) /\
    lyr_len s' = 22 + pad_length /\
    seen true s' = Ambiguous.
Proof.
  intros Hon Hlen Hpad Hnh Hlt Hreg.
  pose proof (load_byte_range _ _ _ Hpad) as Hpr.
  pose proof (load_byte_range _ _ _ Hnh) as Hnr.
  rewrite (decode_long mem raw_pkt len s _ _ Hon Hlen Hpad Hnh).
  destruct (Z.ltb_spec pad_length len) as [_ | Hge]; [| lia].
  rewrite Hreg.
  eexists. split; [reflexivity |].
  unfold flag_set, outcome.
  cbn [packet_flags data dsize p lyr_len next_prot_id negb].
  rewrite Hreg.
  destruct (Z.eqb_spec next_protocol_id (-1)) as [Hm | _]; [lia |].
  rewrite wrap16_small by lia.
  rewrite land_lor_same, Z.eqb_refl.
  repeat split.
Qed.

(** C1, amended: with at least 22 bytes, a pad-length byte below [len] and a
    decoder registered for the next-header byte, the call returns [true] with
    outcome Decodable, sets [PKT_TRUST], reports consumed length
    [22 + pad_length] and the next-header byte, and sets the payload view to
    start at [raw_pkt + 8]; the size of the view is
    [len - (22 + pad_length)] whenever [22 + pad_length <= len <= 65535]. *)
Theorem decode_decodable (mem : Memory) (raw_pkt len : Z) (s : State)
        (pad_length next_protocol_id : Z) :
  ScESPDecoding = true ->
  22 <= len ->
  load mem (raw_pkt + 8 + (len - 22)) = Some pad_length ->
  load mem (raw_pkt + 8 + (len - 22) + 1) = Some next_protocol_id ->
  pad_length < len ->
  has_codec next_protocol_id = true ->
  exists s',
    run mem raw_pkt len s = Some (true, s') /\
    seen true s' = Decodable /\
    flag_set PKT_TRUST s' = true /\
    lyr_len s' = 22 + pad_length /\
    next_prot_id s' = next_protocol_id /\
    data (p s') = raw_pkt + 8 /\
    (22 + pad_length <= len <= 65535 ->
     dsize (p s') = len - (22 + pad_length)).
Proof.
  intros Hon Hlen Hpad Hnh Hlt Hreg.
  pose proof (load_byte_range _ _ _ Hpad) as Hpr.
  pose proof (load_byte_range _ _ _ Hnh) as Hnr.
  rewrite (decode_long mem raw_pkt len s _ _ Hon Hlen Hpad Hnh).
  destruct (Z.ltb_spec pad_length len) as [_ | Hge]; [| lia].
  rewrite Hreg.
  eexists. split; [reflexivity |].
  unfold flag_set, outcome.
  cbn [packet_flags data dsize p lyr_len next_prot_id negb].
  rewrite Hreg.
  destruct (Z.eqb_spec next_protocol_id (-1)) as [Hm | _]; [lia |].
  rewrite (wrap16_small (22 + pad_length)) by lia.
  rewrite land_lor_same, Z.eqb_refl.
  repeat split.
  intros Hfit.
  rewrite (wrap16_small len) by lia.
  apply wrap16_small. lia.
Qed.

(** C2, amended: with [len] readable bytes, [len >= 22] and a pad-length
    byte that is at least [len], the call returns [true] with outcome Opaque,
    sets [PKT_TRUST], reports the sentinel [-1] as next protocol and consumed
    length 22, and sets the payload view to start at [raw_pkt + 8] with size
    [len - 22], that is the span from [raw_pkt + 8] to [raw_pkt + len - 14]:
    the view stops before the two trailer bytes and the authentication data. *)
Theorem decode_opaque (mem : Memory) (raw_pkt len : Z) (s : State)
        (pad_length : Z) :
  ScESPDecoding = true ->
  readable mem raw_pkt len ->
  22 <= len ->
  load mem (raw_pkt + 8 + (len - 22)) = Some pad_length ->
  len <= pad_length ->
  exists s',
    run mem raw_pkt len s = Some (true, s') /\
    seen true s' = Opaque /\
    flag_set PKT_TRUST s' = true /\
    next_prot_id s' = -1 /\
    lyr_len s' = 22 /\
    data (p s') = raw_pkt + 8 /\
    dsize (p s') = len - 22 /\
    data (p s') + dsize (p s') = raw_pkt + len - 14.
Proof.
  intros Hon Hrd Hlen Hpad Hbig.
  pose proof (load_byte_range _ _ _ Hpad) as Hpr.
  destruct (tail_loads mem raw_pkt len Hlen Hrd)
    as (pad' & nh & Hpad' & Hnh & _ & _).
  rewrite (decode_long mem raw_pkt len s _ _ Hon Hlen Hpad Hnh).
  destruct (Z.ltb_spec pad_length len) as [Hlt | _]; [lia |].
  eexists. split; [reflexivity |].
  unfold flag_set, outcome.
  cbn [packet_flags data dsize p lyr_len next_prot_id negb].
  rewrite (wrap16_small len) by lia.
  rewrite wrap16_small by lia.
  rewrite land_lor_same, !Z.eqb_refl.
  repeat split. lia.
Qed.

(** C6, amended: no call of [decode] changes the peg counters: whatever
    the path taken, [processed] and [discards] have after the call the value
    they had before it. *)
Theorem decode_keeps_counts (mem : Memory) (raw_pkt len : Z) (s s' : State)
        (ret : bool) :
  run mem raw_pkt len s = Some (ret, s') ->
  processed (counts s') = processed (counts s) /\
  discards (counts s') = discards (counts s).
Proof.
  unfold decode.
  destruct (negb ScESPDecoding).
  - intros H. injection H as _ <-. split; reflexivity.
  - destruct (len <? ESP_HEADER_LEN + ESP_AUTH_DATA_LEN + ESP_TRAILER_LEN).
    + intros H. injection H as _ <-. split; reflexivity.
    + cbv zeta.
      destruct (load mem _) as [pad |]; [| discriminate].
      destruct (load mem _) as [nh |]; [| discriminate].
      destruct (pad <? len); [destruct (negb _) |];
        intros H; injection H as _ <-; split; reflexivity.
Qed.

(** C7: with [len >= 22] readable bytes, the two tail reads are at offsets
    [len - 14] (pad length) and [len - 13] (next header) from [raw_pkt], both
    inside [[0, len)]; both loads succeed and [decode] never takes the
    out-of-bounds exit. *)
Theorem tail_reads_in_bounds (mem : Memory) (raw_pkt len : Z) (s : State) :
  22 <= len ->
  readable mem raw_pkt len ->
  let lyr := wrap16 (ESP_HEADER_LEN + ESP_AUTH_DATA_LEN + ESP_TRAILER_LEN) in
  let pad_ptr := raw_pkt + ESP_HEADER_LEN + len - lyr in
  let nh_ptr := raw_pkt + ESP_HEADER_LEN + len + 1 - lyr in
  pad_ptr - raw_pkt = len - 14 /\
  nh_ptr - raw_pkt = len - 13 /\
  0 <= pad_ptr - raw_pkt < len /\
  0 <= nh_ptr - raw_pkt < len /\
  (exists pad nh, load mem pad_ptr = Some pad /\ load mem nh_ptr = Some nh) /\
  run mem raw_pkt len s <> None.
Proof.
  intros Hlen Hrd lyr pad_ptr nh_ptr.
  assert (Hp : pad_ptr = raw_pkt + 8 + (len - 22)).
  { subst pad_ptr lyr. change (wrap16 _) with 22. change ESP_HEADER_LEN with 8. lia. }
  assert (Hn : nh_ptr = raw_pkt + 8 + (len - 22) + 1).
  { subst nh_ptr lyr. change (wrap16 _) with 22. change ESP_HEADER_LEN with 8. lia. }
  destruct (tail_loads mem raw_pkt len Hlen Hrd)
    as (pad & nh & Hpad & Hnh & _ & _).
  rewrite Hp, Hn.
  repeat split; try lia.
  - exists pad, nh. split; assumption.
  - destruct (Bool.bool_dec ScESPDecoding true) as [Hon | Hon];
      [| apply Bool.not_true_is_false in Hon].
    + rewrite (decode_long mem raw_pkt len s pad nh Hon Hlen Hpad Hnh).
      discriminate.
    + rewrite (decode_disabled mem raw_pkt len s Hon). discriminate.
Qed.

(** C9: for [len >= 256] no call has outcome Opaque, because the pad-length
    byte is at most 255 and so below [len]; with decoding enabled and the
    buffer readable the call succeeds as Decodable or Ambiguous. *)
Theorem no_opaque_from_256 (mem : Memory) (raw_pkt len : Z) (s : State) :
  256 <= len ->
  (forall ret s', run mem raw_pkt len s = Some (ret, s') ->
                  seen ret s' <> Opaque) /\
  (ScESPDecoding = true -> readable mem raw_pkt len ->
   exists s', run mem raw_pkt len s = Some (true, s') /\
              (seen true s' = Decodable \/ seen true s' = Ambiguous)).
Proof.
  intros Hlen.
  assert (Hmain : ScESPDecoding = true -> forall pad nh,
            load mem (raw_pkt + 8 + (len - 22)) = Some pad ->
            load mem (raw_pkt + 8 + (len - 22) + 1) = Some nh ->
            exists s', run mem raw_pkt len s = Some (true, s') /\
                       (seen true s' = Decodable \/ seen true s' = Ambiguous)).
  { intros Hon pad nh Hpad Hnh.
    pose proof (load_byte_range _ _ _ Hpad) as Hpr.
    pose proof (load_byte_range _ _ _ Hnh) as Hnr.
    rewrite (decode_long mem raw_pkt len s pad nh Hon ltac:(lia) Hpad Hnh).
    destruct (Z.ltb_spec pad len) as [_ | Hge]; [| lia].
    eexists. split; [reflexivity |].
    unfold outcome. simpl negb. cbv iota.
    destruct (has_codec nh) eqn:Hreg; cbn [next_prot_id];
      (destruct (Z.eqb_spec nh (-1)) as [Hm | _]; [lia |]);
      rewrite Hreg; [left | right]; reflexivity. }
  split.
  - intros ret s' Hrun.
    destruct (Bool.bool_dec ScESPDecoding true) as [Hon | Hon];
      [| apply Bool.not_true_is_false in Hon].
    + destruct (decode_long_inv mem raw_pkt len s s' ret Hon ltac:(lia) Hrun)
        as (pad & nh & Hpad & Hnh).
      destruct (Hmain Hon pad nh Hpad Hnh) as (s2 & Hs2 & Hout).
      rewrite Hs2 in Hrun. injection Hrun as <- <-.
      destruct Hout as [-> | ->]; discriminate.
    + rewrite (decode_disabled mem raw_pkt len s Hon) in Hrun.
      injection Hrun as <- <-. discriminate.
  - intros Hon Hrd.
    destruct (tail_loads mem raw_pkt len ltac:(lia) Hrd)
      as (pad & nh & Hpad & Hnh & _ & _).
    exact (Hmain Hon pad nh Hpad Hnh).
Qed.

Lemma decode_flags_cases (mem : Memory) (raw_pkt len : Z) (s s' : State)
      (ret : bool) :
  run mem raw_pkt len s = Some (ret, s') ->
  packet_flags (p s') = packet_flags (p s) \/
  packet_flags (p s') = Z.lor (packet_flags (p s)) PKT_TRUST \/
  packet_flags (p s') = Z.lor (packet_flags (p s)) PKT_UNSURE_ENCAP.
Proof.
  unfold decode.
  destruct (negb ScESPDecoding).
  - intros H. injection H as _ <-. left. reflexivity.
  - destruct (len <? ESP_HEADER_LEN + ESP_AUTH_DATA_LEN + ESP_TRAILER_LEN).
    + intros H. injection H as _ <-. left. reflexivity.
    + cbv zeta.
      destruct (load mem _) as [pad |]; [| discriminate].
      destruct (load mem _) as [nh |]; [| discriminate].
      destruct (pad <? len); [destruct (negb _) |];
        intros H; injection H as _ <-; right; [right | left | left];
        reflexivity.
Qed.

(** The flag word stays a [uint32_t]. *)
Lemma decode_flags_u32 (mem : Memory) (raw_pkt len : Z) (s s' : State)
      (ret : bool) :
  0 <= PKT_TRUST < 2 ^ 32 -> 0 <= PKT_UNSURE_ENCAP < 2 ^ 32 ->
  0 <= packet_flags (p s) < 2 ^ 32 ->
  run mem raw_pkt len s = Some (ret, s') ->
  0 <= packet_flags (p s') < 2 ^ 32.
Proof.
  intros Ht Hu Hf Hrun.
  destruct (decode_flags_cases mem raw_pkt len s s' ret Hrun)
    as [-> | [-> | ->]]; [exact Hf | |]; apply lor_u32; assumption.
Qed.

(** C10: a call only ORs bits into [packet_flags]: every bit set before the
    call is set after it, and the flags after the call are the flags before
    it with nothing, with [PKT_TRUST] alone or with [PKT_UNSURE_ENCAP] alone
    ORed in; for two distinct flag bits, no call newly sets both. *)
Theorem decode_flags_or_one (mem : Memory) (raw_pkt len : Z) (s s' : State)
        (ret : bool) :
  run mem raw_pkt len s = Some (ret, s') ->
  (forall n, Z.testbit (packet_flags (p s)) n = true ->
             Z.testbit (packet_flags (p s')) n = true) /\
  (packet_flags (p s') = packet_flags (p s) \/
   packet_flags (p s') = Z.lor (packet_flags (p s)) PKT_TRUST \/
   packet_flags (p s') = Z.lor (packet_flags (p s)) PKT_UNSURE_ENCAP) /\
  (Z.land PKT_TRUST PKT_UNSURE_ENCAP = 0 ->
   ~ ((flag_set PKT_TRUST s = false /\ flag_set PKT_TRUST s' = true) /\
      (flag_set PKT_UNSURE_ENCAP s = false /\
       flag_set PKT_UNSURE_ENCAP s' = true))).
Proof.
  intros Hrun.
  pose proof (decode_flags_cases mem raw_pkt len s s' ret Hrun) as Hc.
  split; [| split; [exact Hc |]].
  - intros n Hb. destruct Hc as [-> | [-> | ->]];
      [exact Hb | apply testbit_lor_mono, Hb | apply testbit_lor_mono, Hb].
  - intros Hdisj [[Ht0 Ht1] [Hu0 Hu1]]. unfold flag_set in *.
    destruct Hc as [Hf | [Hf | Hf]]; rewrite Hf in *.
    + congruence.
    + rewrite (land_lor_other _ _ _ Hdisj) in Hu1. congruence.
    + rewrite Z.land_comm in Hdisj.
      rewrite (land_lor_other _ _ _ Hdisj) in Ht1. congruence.
Qed.

End DecodeFacts.

(** ** Properties of [stats] *)

Lemma cells_write_other (l k : nat) (o : VecObj) (h : Store) :
  l <> k -> cells (store_write k o h) l = cells h l.
Proof.
  intros Hne. unfold store_write. cbn [cells].
  destruct (Nat.eqb_spec l k); [contradiction | reflexivity].
Qed.

Lemma cells_drop_other (l k : nat) (h : Store) :
  l <> k -> cells (store_drop k h) l = cells h l.
Proof.
  intros Hne. unfold store_drop. cbn [cells].
  destruct (Nat.eqb_spec l k); [contradiction | reflexivity].
Qed.

Lemma cells_alloc_other (l : nat) (o : VecObj) (h : Store) :
  (l < next_loc h)%nat -> cells (snd (store_alloc o h)) l = cells h l.
Proof.
  intros Hlt. unfold store_alloc. cbn [snd cells].
  destruct (Nat.eqb_spec l (next_loc h)); [lia | reflexivity].
Qed.

(** C8: what a caller of [stats] gets back.  Both vectors are passed by
    value, so a call that returns (the thread-local [processed] is 0) leaves
    every object of the caller, and so its two vectors, exactly as it was:
    neither the peg names nor the counter values reach the caller.  With
    [processed] not 0 the call does not return. *)
Theorem stats_caller_vectors_unchanged
        (cnt : CdPegs) (arg_counts arg_names : nat) (h : Store)
        (v : list Z) (ns : list string) :
  (arg_counts < next_loc h)%nat ->
  (arg_names < next_loc h)%nat ->
  cells h arg_counts = Some (CountsVec (Elements v)) ->
  cells h arg_names = Some (NamesVec ns) ->
  (processed cnt = 0 ->
   exists h',
     stats cnt arg_counts arg_names h = Some h' /\
     cells h' arg_counts = Some (CountsVec (Elements v)) /\
     cells h' arg_names = Some (NamesVec ns) /\
     (forall l, (l < next_loc h)%nat -> cells h' l = cells h l)) /\
  (processed cnt <> 0 -> stats cnt arg_counts arg_names h = None).
Proof.
  intros Ha Hb Hca Hcb. unfold stats. rewrite Hca, Hcb.
  destruct (store_alloc (CountsVec (Elements v)) h) as [pc h1] eqn:E1.
  destruct (store_alloc (NamesVec ns) h1) as [pn h2] eqn:E2.
  assert (Hpc : pc = next_loc h) by (unfold store_alloc in E1; congruence).
  assert (Hh1 : h1 = snd (store_alloc (CountsVec (Elements v)) h))
    by (rewrite E1; reflexivity).
  assert (Hn1 : next_loc h1 = S (next_loc h))
    by (rewrite Hh1; reflexivity).
  assert (Hpn : pn = next_loc h1) by (unfold store_alloc in E2; congruence).
  assert (Hh2 : h2 = snd (store_alloc (NamesVec ns) h1))
    by (rewrite E2; reflexivity).
  split.
  - intros Hz. rewrite Hz. cbv [Z.eqb].
    assert (Hkeep : forall l, (l < next_loc h)%nat ->
              cells (store_drop pn
                       (store_drop pc
                          (store_write pn (NamesVec (ns ++ peg_names))
                             (store_write pc (CountsVec (Overwritten cnt))
                                h2)))) l
              = cells h l).
    { intros l Hl.
      rewrite cells_drop_other by lia.
      rewrite cells_drop_other by lia.
      rewrite cells_write_other by lia.
      rewrite cells_write_other by lia.
      rewrite Hh2, cells_alloc_other by lia.
      rewrite Hh1. apply cells_alloc_other. exact Hl. }
    eexists. split; [reflexivity |].
    split; [rewrite (Hkeep _ Ha); exact Hca |].
    split; [rewrite (Hkeep _ Hb); exact Hcb |].
    exact Hkeep.
  - intros Hnz. destruct (Z.eqb_spec (processed cnt) 0) as [He | _];
      [contradiction | reflexivity].
Qed.

(** With a non-zero [processed] the call on the same vectors does not
    return; the sibling hook, which takes its vector by reference, does
    deliver its id. *)
Example stats_on_empty_vectors :
  stats (mkCdPegs 5 2) 0 1 empty_vectors = None /\
  get_protocol_ids [] = [50].
Proof.
  split; reflexivity.
Qed.

(** ** The theorems at concrete packets *)

(** The decoder with ESP decoding enabled, the TCP/UDP registry, two
    distinct flag bits and an event id. *)
Local Abbreviation run_sample :=
  (decode true tcp_udp_registry 0x2000 0x400 294).

Lemma stats_caller_vectors_unchanged_witness :
  (0 < next_loc empty_vectors)%nat /\
  (1 < next_loc empty_vectors)%nat /\
  cells empty_vectors 0 = Some (CountsVec (Elements [])) /\
  cells empty_vectors 1 = Some (NamesVec []) /\
  (processed (mkCdPegs 0 0) = 0 ->
   exists h',
     stats (mkCdPegs 0 0) 0 1 empty_vectors = Some h' /\
     cells h' 0%nat = Some (CountsVec (Elements [])) /\
     cells h' 1%nat = Some (NamesVec []) /\
     (forall l, (l < next_loc empty_vectors)%nat ->
                cells h' l = cells empty_vectors l)) /\
  (processed (mkCdPegs 0 0) <> 0 ->
   stats (mkCdPegs 0 0) 0 1 empty_vectors = None).
Proof.
  assert (H0 : (0 < next_loc empty_vectors)%nat) by (simpl; lia).
  assert (H1 : (1 < next_loc empty_vectors)%nat) by (simpl; lia).
  split; [exact H0 |]. split; [exact H1 |].
  split; [reflexivity |]. split; [reflexivity |].
  apply (stats_caller_vectors_unchanged (mkCdPegs 0 0) 0 1 empty_vectors
           [] [] H0 H1); reflexivity.
Defined.

Lemma decode_truncated_witness :
  true = true /\ 0 <= 14 < 22 /\
  exists s',
    run_sample (esp_packet 0 x00 x00) 4096 14 fresh_state = Some (false, s') /\
    events s' = events fresh_state ++ [294] /\
    data (p s') = 4096 /\
    dsize (p s') = 14 /\
    outcome tcp_udp_registry false s' = Rejected.
Proof.
  split; [reflexivity |]. split; [lia |].
  apply (decode_truncated true tcp_udp_registry 0x2000 0x400 294
           (esp_packet 0 x00 x00) 4096 14 fresh_state);
    [reflexivity | lia].
Defined.

Lemma decode_false_iff_witness :
  readable (esp_packet 16 x02 x06) 4096 30 /\
  exists ret s',
    run_sample (esp_packet 16 x02 x06) 4096 30 fresh_state = Some (ret, s') /\
    (ret = false <-> true = false \/ 30 < 22) /\
    (ret = true ->
     exists pad nh,
       load (esp_packet 16 x02 x06) (4096 + 8 + (30 - 22)) = Some pad /\
       load (esp_packet 16 x02 x06) (4096 + 8 + (30 - 22) + 1) = Some nh /\
       ((pad < 30 /\ lyr_len s' = 22 + pad /\ next_prot_id s' = nh) \/
        (30 <= pad /\ lyr_len s' = 22 /\ next_prot_id s' = -1))).
Proof.
  assert (Hrd : readable (esp_packet 16 x02 x06) 4096 30).
  { unfold readable. simpl. lia. }
  split; [exact Hrd |].
  apply (decode_false_iff true tcp_udp_registry 0x2000 0x400 294
           (esp_packet 16 x02 x06) 4096 30 fresh_state).
  exact Hrd.
Defined.

Lemma decode_ambiguous_witness :
  true = true /\ 22 <= 30 /\
  load (esp_packet 16 x02 x2f) (4096 + 8 + (30 - 22)) = Some 2 /\
  load (esp_packet 16 x02 x2f) (4096 + 8 + (30 - 22) + 1) = Some 47 /\
  2 < 30 /\ tcp_udp_registry 47 = false /\
  exists s',
    run_sample (esp_packet 16 x02 x2f) 4096 30 fresh_state = Some (true, s') /\
    flag_set 0x400 s' = true /\
    data (p s') = data (p fresh_state) /\
    dsize (p s') = dsize (p fresh_state) /\
    lyr_len s' = 22 + 2 /\
    outcome tcp_udp_registry true s' = Ambiguous.
Proof.
  repeat (split; [first [reflexivity | lia] |]).
  apply (decode_ambiguous true tcp_udp_registry 0x2000 0x400 294
           (esp_packet 16 x02 x2f) 4096 30 fresh_state 2 47);
    first [reflexivity | lia].
Defined.

Lemma decode_decodable_witness :
  true = true /\ 22 <= 30 /\
  load (esp_packet 16 x02 x06) (4096 + 8 + (30 - 22)) = Some 2 /\
  load (esp_packet 16 x02 x06) (4096 + 8 + (30 - 22) + 1) = Some 6 /\
  2 < 30 /\ tcp_udp_registry 6 = true /\
  exists s',
    run_sample (esp_packet 16 x02 x06) 4096 30 fresh_state = Some (true, s') /\
    outcome tcp_udp_registry true s' = Decodable /\
    flag_set 0x2000 s' = true /\
    lyr_len s' = 22 + 2 /\
    next_prot_id s' = 6 /\
    data (p s') = 4096 + 8 /\
    22 + 2 <= 30 <= 65535 /\
    dsize (p s') = 30 - (22 + 2).
Proof.
  repeat (split; [first [reflexivity | lia] |]).
  destruct (decode_decodable true tcp_udp_registry 0x2000 0x400 294
              (esp_packet 16 x02 x06) 4096 30 fresh_state 2 6)
    as (s' & Hrun & Hout & Hflag & Hlyr & Hnext & Hdata & Hsize);
    try first [reflexivity | lia].
  exists s'. repeat split; try assumption; try lia.
Defined.

(** C1 as stated fails: on a 22-byte packet with pad length 1 and next
    header TCP the preconditions hold, but 22 + 1 exceeds the length and the
    stored size is 65535, not 22 - (22 + 1). *)
Lemma decode_decodable_size_counterexample :
  22 <= 22 /\
  load (esp_packet 8 x01 x06) (4096 + 8 + (22 - 22)) = Some 1 /\
  load (esp_packet 8 x01 x06) (4096 + 8 + (22 - 22) + 1) = Some 6 /\
  1 < 22 /\ tcp_udp_registry 6 = true /\
  readable (esp_packet 8 x01 x06) 4096 22 /\
  exists s',
    run_sample (esp_packet 8 x01 x06) 4096 22 fresh_state = Some (true, s') /\
    lyr_len s' = 22 + 1 /\
    dsize (p s') = 65535 /\
    dsize (p s') <> 22 - (22 + 1).
Proof.
  repeat (split; [first [reflexivity | lia | (unfold readable; simpl; lia)] |]).
  eexists. split; [reflexivity |].
  repeat split. discriminate.
Qed.

Lemma decode_opaque_witness :
  true = true /\ readable (esp_packet 16 xc8 x06) 4096 30 /\ 22 <= 30 /\
  load (esp_packet 16 xc8 x06) (4096 + 8 + (30 - 22)) = Some 200 /\
  30 <= 200 /\
  exists s',
    run_sample (esp_packet 16 xc8 x06) 4096 30 fresh_state = Some (true, s') /\
    outcome tcp_udp_registry true s' = Opaque /\
    flag_set 0x2000 s' = true /\
    next_prot_id s' = -1 /\
    lyr_len s' = 22 /\
    data (p s') = 4096 + 8 /\
    dsize (p s') = 30 - 22 /\
    data (p s') + dsize (p s') = 4096 + 30 - 14.
Proof.
  assert (Hrd : readable (esp_packet 16 xc8 x06) 4096 30).
  { unfold readable. simpl. lia. }
  repeat (split; [first [reflexivity | lia | exact Hrd] |]).
  apply (decode_opaque true tcp_udp_registry 0x2000 0x400 294
           (esp_packet 16 xc8 x06) 4096 30 fresh_state 200);
    first [reflexivity | lia | exact Hrd].
Defined.

(** C2 as stated fails: on a 30-byte packet with pad length 200 the view
    starts at [raw_pkt + 8] but has size 8, so it ends at [raw_pkt + 16] and
    not at the end of the buffer [raw_pkt + 30]. *)
Lemma decode_opaque_span_counterexample :
  22 <= 30 /\
  load (esp_packet 16 xc8 x06) (4096 + 8 + (30 - 22)) = Some 200 /\
  200 >= 30 /\
  readable (esp_packet 16 xc8 x06) 4096 30 /\
  exists s',
    run_sample (esp_packet 16 xc8 x06) 4096 30 fresh_state = Some (true, s') /\
    data (p s') = 4096 + 8 /\
    dsize (p s') = 8 /\
    data (p s') + dsize (p s') <> 4096 + 30.
Proof.
  repeat (split; [first [reflexivity | lia | (unfold readable; simpl; lia)] |]).
  eexists. split; [reflexivity |].
  repeat split. discriminate.
Qed.

Lemma decode_keeps_counts_witness :
  exists s',
    run_sample (esp_packet 0 x00 x00) 4096 14 fresh_state = Some (false, s') /\
    processed (counts s') = processed (counts fresh_state) /\
    discards (counts s') = discards (counts fresh_state).
Proof.
  eexists. split; [reflexivity |].
  apply (decode_keeps_counts true tcp_udp_registry 0x2000 0x400 294
           (esp_packet 0 x00 x00) 4096 14 fresh_state _ false).
  reflexivity.
Defined.

(** C6 as stated fails: a truncation rejection leaves [discards] at its old
    value instead of adding one, and a call on a 30-byte packet that reaches
    the tail reads leaves [processed] at its old value. *)
Lemma decode_counters_counterexample :
  (14 < 22 /\
   exists s',
     run_sample (esp_packet 0 x00 x00) 4096 14 fresh_state = Some (false, s') /\
     discards (counts s') <> discards (counts fresh_state) + 1) /\
  (30 >= 22 /\
   exists s',
     run_sample (esp_packet 16 x02 x06) 4096 30 fresh_state = Some (true, s') /\
     processed (counts s') <> processed (counts fresh_state) + 1).
Proof.
  split; (split; [lia |]); eexists; (split; [reflexivity |]); discriminate.
Qed.

Lemma tail_reads_in_bounds_witness :
  22 <= 30 /\ readable (esp_packet 16 x02 x06) 4096 30 /\
  let lyr := wrap16 (ESP_HEADER_LEN + ESP_AUTH_DATA_LEN + ESP_TRAILER_LEN) in
  let pad_ptr := 4096 + ESP_HEADER_LEN + 30 - lyr in
  let nh_ptr := 4096 + ESP_HEADER_LEN + 30 + 1 - lyr in
  pad_ptr - 4096 = 30 - 14 /\
  nh_ptr - 4096 = 30 - 13 /\
  0 <= pad_ptr - 4096 < 30 /\
  0 <= nh_ptr - 4096 < 30 /\
  (exists pad nh,
      load (esp_packet 16 x02 x06) pad_ptr = Some pad /\
      load (esp_packet 16 x02 x06) nh_ptr = Some nh) /\
  run_sample (esp_packet 16 x02 x06) 4096 30 fresh_state <> None.
Proof.
  assert (Hrd : readable (esp_packet 16 x02 x06) 4096 30).
  { unfold readable. simpl. lia. }
  split; [lia |]. split; [exact Hrd |].
  apply (tail_reads_in_bounds true tcp_udp_registry 0x2000 0x400 294
           (esp_packet 16 x02 x06) 4096 30 fresh_state);
    [lia | exact Hrd].
Defined.

Lemma no_opaque_from_256_witness :
  256 <= 256 /\
  (forall ret s',
      run_sample (esp_packet 242 xff x06) 4096 256 fresh_state = Some (ret, s') ->
      outcome tcp_udp_registry ret s' <> Opaque) /\
  (true = true -> readable (esp_packet 242 xff x06) 4096 256 ->
   exists s',
     run_sample (esp_packet 242 xff x06) 4096 256 fresh_state = Some (true, s') /\
     (outcome tcp_udp_registry true s' = Decodable \/
      outcome tcp_udp_registry true s' = Ambiguous)).
Proof.
  split; [lia |].
  apply (no_opaque_from_256 true tcp_udp_registry 0x2000 0x400 294
           (esp_packet 242 xff x06) 4096 256 fresh_state).
  lia.
Defined.

Lemma decode_flags_or_one_witness :
  exists s',
    run_sample (esp_packet 16 x02 x06) 4096 30 fresh_state = Some (true, s') /\
    Z.land 0x2000 0x400 = 0 /\
    (forall n, Z.testbit (packet_flags (p fresh_state)) n = true ->
               Z.testbit (packet_flags (p s')) n = true) /\
    (packet_flags (p s') = packet_flags (p fresh_state) \/
     packet_flags (p s') = Z.lor (packet_flags (p fresh_state)) 0x2000 \/
     packet_flags (p s') = Z.lor (packet_flags (p fresh_state)) 0x400) /\
    (Z.land 0x2000 0x400 = 0 ->
     ~ ((flag_set 0x2000 fresh_state = false /\ flag_set 0x2000 s' = true) /\
        (flag_set 0x400 fresh_state = false /\ flag_set 0x400 s' = true))).
Proof.
  eexists. split; [reflexivity |]. split; [reflexivity |].
  apply (decode_flags_or_one true tcp_udp_registry 0x2000 0x400 294
           (esp_packet 16 x02 x06) 4096 30 fresh_state _ true).
  reflexivity.
Defined.

(** ** Further properties of [decode] *)

Lemma some_pair_inv (A B : Type) (a a' : A) (b b' : B) :
  Some (a, b) = Some (a', b') -> a = a' /\ b = b'.
Proof.
  intros H. split; congruence.
Qed.

Section DecodeMore.

Variable ScESPDecoding : bool.
Variable has_codec : Z -> bool.
Variable PKT_TRUST : Z.
Variable PKT_UNSURE_ENCAP : Z.
Variable DECODE_ESP_HEADER_TRUNC : Z.

Local Abbreviation run :=
  (decode ScESPDecoding has_codec PKT_TRUST PKT_UNSURE_ENCAP
          DECODE_ESP_HEADER_TRUNC).

(** An enabled call on at least 22 bytes faults when a tail byte is outside
    the packet memory. *)
Lemma decode_long_fault (mem : Memory) (raw_pkt len : Z) (s : State) :
  ScESPDecoding = true -> 22 <= len ->
  load mem (raw_pkt + 8 + (len - 22)) = None \/
  load mem (raw_pkt + 8 + (len - 22) + 1) = None ->
  run mem raw_pkt len s = None.
Proof.
  intros Hon Hlen Hnone. unfold decode. rewrite Hon. simpl negb. cbv iota.
  change (ESP_HEADER_LEN + ESP_AUTH_DATA_LEN + ESP_TRAILER_LEN) with 22.
  destruct (Z.ltb_spec len 22) as [Hlt | _]; [lia |].
  change (wrap16 22) with 22. change ESP_HEADER_LEN with 8.
  cbn [lyr_len set_lyr_len].
  replace (raw_pkt + 8 + len - 22) with (raw_pkt + 8 + (len - 22)) by lia.
  replace (raw_pkt + 8 + len + 1 - 22) with (raw_pkt + 8 + (len - 22) + 1) by lia.
  destruct Hnone as [-> | ->]; [reflexivity |].
  destruct (load mem (raw_pkt + 8 + (len - 22))); reflexivity.
Qed.

(** The four ways a call can go. *)
Lemma decode_cases (mem : Memory) (raw_pkt len : Z) (s : State) :
  (ScESPDecoding = false /\ run mem raw_pkt len s = Some (false, s)) \/
  (ScESPDecoding = true /\ len < 22 /\
   run mem raw_pkt len s =
   Some (false,
         mkState (mkPacket (packet_flags (p s)) raw_pkt (wrap16 len))
                 (lyr_len s) (next_prot_id s)
                 (events s ++ [DECODE_ESP_HEADER_TRUNC]) (counts s))) \/
  (ScESPDecoding = true /\ 22 <= len /\
   exists pad nh,
     load mem (raw_pkt + 8 + (len - 22)) = Some pad /\
     load mem (raw_pkt + 8 + (len - 22) + 1) = Some nh /\
     0 <= pad <= 255 /\ 0 <= nh <= 255 /\
     run mem raw_pkt len s =
     Some (true,
           if pad <? len then
             if has_codec nh then
               mkState (mkPacket (Z.lor (packet_flags (p s)) PKT_TRUST)
                                 (raw_pkt + 8)
                                 (wrap16 (wrap16 len - wrap16 (22 + pad))))
                       (wrap16 (22 + pad)) nh (events s) (counts s)
             else
               mkState (mkPacket (Z.lor (packet_flags (p s)) PKT_UNSURE_ENCAP)
                                 (data (p s)) (dsize (p s)))
                       (wrap16 (22 + pad)) nh (events s) (counts s)
           else
             mkState (mkPacket (Z.lor (packet_flags (p s)) PKT_TRUST)
                               (raw_pkt + 8) (wrap16 (wrap16 len - 22)))
                     22 (-1) (events s) (counts s))) \/
  (ScESPDecoding = true /\ 22 <= len /\
   (load mem (raw_pkt + 8 + (len - 22)) = None \/
    load mem (raw_pkt + 8 + (len - 22) + 1) = None) /\
   run mem raw_pkt len s = None).
Proof.
  destruct (Bool.bool_dec ScESPDecoding true) as [Hon | Hon];
    [| apply Bool.not_true_is_false in Hon].
  - right. destruct (Z.lt_ge_cases len 22) as [Hlt | Hge].
    + left. split; [exact Hon |]. split; [exact Hlt |].
      exact (decode_short _ _ _ _ _ mem raw_pkt len s Hon Hlt).
    + right.
      destruct (load mem (raw_pkt + 8 + (len - 22))) as [pad |] eqn:Hpad.
      * destruct (load mem (raw_pkt + 8 + (len - 22) + 1)) as [nh |] eqn:Hnh.
        -- left. split; [exact Hon |]. split; [exact Hge |].
           exists pad, nh. repeat split;
             try (apply (load_byte_range _ _ _ Hpad));
             try (apply (load_byte_range _ _ _ Hnh)).
           exact (decode_long _ _ _ _ _ mem raw_pkt len s pad nh
                              Hon Hge Hpad Hnh).
        -- right. split; [exact Hon |]. split; [exact Hge |].
           split; [right; reflexivity |].
           apply decode_long_fault; [exact Hon | exact Hge | right; exact Hnh].
      * right. split; [exact Hon |]. split; [exact Hge |].
        split; [left; reflexivity |].
        apply decode_long_fault; [exact Hon | exact Hge | left; exact Hpad].
  - left. split; [exact Hon |].
    exact (decode_disabled _ _ _ _ _ mem raw_pkt len s Hon).
Qed.

Ltac by_decode_cases mem raw_pkt len s :=
  destruct (decode_cases mem raw_pkt len s)
    as [[Hon Hr]
       | [(Hon & Hlt & Hr)
         | [(Hon & Hge & pad & nh & Hpad & Hnh & Hpr & Hnr & Hr)
           | (Hon & Hge & Hnone & Hr)]]].

(** X1: a call that returns [false] leaves the flags and both reference
    parameters alone; with decoding disabled it changes nothing at all, and
    otherwise it is the truncation exit. *)
Theorem decode_reject_frame (mem : Memory) (raw_pkt len : Z) (s s' : State) :
  run mem raw_pkt len s = Some (false, s') ->
  packet_flags (p s') = packet_flags (p s) /\
  lyr_len s' = lyr_len s /\
  next_prot_id s' = next_prot_id s /\
  (ScESPDecoding = false -> s' = s) /\
  (ScESPDecoding = true ->
   len < 22 /\ data (p s') = raw_pkt /\ dsize (p s') = wrap16 len).
Proof.
  intros Hrun. by_decode_cases mem raw_pkt len s; rewrite Hr in Hrun.
  - apply some_pair_inv in Hrun as [_ <-]. repeat split; try reflexivity; intros; congruence.
  - apply some_pair_inv in Hrun as [_ <-]. cbv [packet_flags p lyr_len next_prot_id data dsize].
    repeat split; try reflexivity; intros; congruence || exact Hlt.
  - discriminate.
  - discriminate.
Qed.

(** X2: the result depends on the packet bytes only through the two tail
    bytes: memories that agree at offsets [len - 14] and [len - 13] give the
    same result, whatever the header, payload and authentication bytes. *)
Theorem decode_reads_two_bytes (mem1 mem2 : Memory) (raw_pkt len : Z)
        (s : State) :
  load mem1 (raw_pkt + 8 + (len - 22)) = load mem2 (raw_pkt + 8 + (len - 22)) ->
  load mem1 (raw_pkt + 8 + (len - 22) + 1)
    = load mem2 (raw_pkt + 8 + (len - 22) + 1) ->
  run mem1 raw_pkt len s = run mem2 raw_pkt len s.
Proof.
  intros Ha Hb.
  by_decode_cases mem1 raw_pkt len s; rewrite Hr.
  - symmetry. exact (decode_disabled _ _ _ _ _ mem2 raw_pkt len s Hon).
  - symmetry. exact (decode_short _ _ _ _ _ mem2 raw_pkt len s Hon Hlt).
  - rewrite Ha in Hpad. rewrite Hb in Hnh. symmetry.
    exact (decode_long _ _ _ _ _ mem2 raw_pkt len s pad nh Hon Hge Hpad Hnh).
  - rewrite Ha, Hb in Hnone. symmetry.
    apply decode_long_fault; assumption.
Qed.

(** X3: the bounds-checked decoder takes the out-of-bounds exit exactly when
    decoding is enabled, [len >= 22] and one of the two tail addresses is
    outside the packet memory. *)
Theorem decode_fault_iff (mem : Memory) (raw_pkt len : Z) (s : State) :
  run mem raw_pkt len s = None <->
  ScESPDecoding = true /\ 22 <= len /\
  (load mem (raw_pkt + 8 + (len - 22)) = None \/
   load mem (raw_pkt + 8 + (len - 22) + 1) = None).
Proof.
  split.
  - intros Hrun. by_decode_cases mem raw_pkt len s; rewrite Hr in Hrun;
      try discriminate.
    repeat split; assumption.
  - intros (Hon & Hge & Hnone). apply decode_long_fault; assumption.
Qed.

(** X4: the event queue grows by the truncation event exactly on an enabled
    call with [len < 22], and is untouched by every other call; a call that
    returns [true] never queues an event. *)
Theorem decode_events_exact (mem : Memory) (raw_pkt len : Z) (s s' : State)
        (ret : bool) :
  run mem raw_pkt len s = Some (ret, s') ->
  events s' = (if ScESPDecoding && (len <? 22)
               then events s ++ [DECODE_ESP_HEADER_TRUNC]
               else events s) /\
  (ret = true -> events s' = events s).
Proof.
  intros Hrun. by_decode_cases mem raw_pkt len s; rewrite Hr in Hrun;
    try discriminate; apply some_pair_inv in Hrun as [<- <-]; rewrite Hon.
  - split; reflexivity.
  - destruct (Z.ltb_spec len 22) as [_ | Hge]; [| lia].
    split; [reflexivity | discriminate].
  - destruct (Z.ltb_spec len 22) as [Hlt | _]; [lia |].
    destruct (pad <? len); [destruct (has_codec nh) |];
      split; reflexivity.
Qed.

(** X5: after a call that returns [true] the consumed length is between 22
    and 277 and below [len + 22], and the next-protocol id is the sentinel
    [-1] or a byte value. *)
Theorem decode_success_ranges (mem : Memory) (raw_pkt len : Z) (s s' : State) :
  run mem raw_pkt len s = Some (true, s') ->
  22 <= lyr_len s' <= 277 /\
  lyr_len s' < len + 22 /\
  (next_prot_id s' = -1 \/ 0 <= next_prot_id s' <= 255).
Proof.
  intros Hrun. by_decode_cases mem raw_pkt len s; rewrite Hr in Hrun;
    try discriminate; apply some_pair_inv in Hrun as [_ <-].
  destruct (Z.ltb_spec pad len) as [Hlt | Hle].
  - destruct (has_codec nh); cbv [lyr_len next_prot_id];
      rewrite wrap16_small by lia; (split; [lia |]); (split; [lia |]);
      right; exact Hnr.
  - cbv [lyr_len next_prot_id]. split; [lia |]. split; [lia |].
    left. reflexivity.
Qed.

(** X7: on the branch with a registered decoder (and [len <= 65535]) the
    payload view ends inside the buffer exactly when the padding and the 22
    framing bytes fit in [len]; then it ends [14 + pad] bytes before the end
    of the buffer, and otherwise the stored size has wrapped to
    [65536 + len - 22 - pad]. *)
Theorem decodable_view_in_bounds_iff (mem : Memory) (raw_pkt len : Z)
        (s : State) (pad_length next_protocol_id : Z) :
  ScESPDecoding = true ->
  22 <= len <= 65535 ->
  load mem (raw_pkt + 8 + (len - 22)) = Some pad_length ->
  load mem (raw_pkt + 8 + (len - 22) + 1) = Some next_protocol_id ->
  pad_length < len ->
  has_codec next_protocol_id = true ->
  exists s',
    run mem raw_pkt len s = Some (true, s') /\
    (data (p s') + dsize (p s') <= raw_pkt + len <-> 22 + pad_length <= len) /\
    (22 + pad_length <= len ->
     data (p s') + dsize (p s') = raw_pkt + len - 14 - pad_length) /\
    (len < 22 + pad_length ->
     dsize (p s') = 65536 + len - 22 - pad_length).
Proof.
  intros Hon Hlen Hpad Hnh Hlt Hreg.
  pose proof (load_byte_range _ _ _ Hpad) as Hpr.
  rewrite (decode_long _ _ _ _ _ mem raw_pkt len s _ _ Hon
                       ltac:(lia) Hpad Hnh).
  destruct (Z.ltb_spec pad_length len) as [_ | Hge]; [| lia].
  rewrite Hreg. eexists. split; [reflexivity |].
  cbv [data dsize p].
  rewrite (wrap16_small (22 + pad_length)) by lia.
  rewrite (wrap16_small len) by lia.
  destruct (Z.le_gt_cases (22 + pad_length) len) as [Hfit | Hover].
  - rewrite wrap16_small by lia. repeat split; intros; lia.
  - assert (Hw : wrap16 (len - (22 + pad_length))
                 = 65536 + len - 22 - pad_length).
    { unfold wrap16. change (2 ^ 16) with 65536.
      symmetry. apply (Z.mod_unique_pos _ _ (-1)); lia. }
    rewrite Hw. repeat split; intros; lia.
Qed.

(** X8: a call that returns [true] is idempotent: repeating it on the
    state it left returns [true] and leaves that state as it is. *)
Theorem decode_success_idempotent (mem : Memory) (raw_pkt len : Z)
        (s s' : State) :
  run mem raw_pkt len s = Some (true, s') ->
  run mem raw_pkt len s' = Some (true, s').
Proof.
  intros Hrun. by_decode_cases mem raw_pkt len s; rewrite Hr in Hrun;
    try discriminate; apply some_pair_inv in Hrun as [_ <-].
  rewrite (decode_long _ _ _ _ _ mem raw_pkt len _ pad nh Hon Hge Hpad Hnh).
  destruct (pad <? len); [destruct (has_codec nh) |];
    cbv [packet_flags data dsize p events counts];
    rewrite <- Z.lor_assoc, Z.lor_diag; reflexivity.
Qed.

(** X9: what a call does to the payload view: it leaves [data] and [dsize]
    alone, or it returns [false] with the view on the whole buffer and the
    flags untouched, or it returns [true] with the view starting at
    [raw_pkt + 8] and [PKT_TRUST] ORed into the flags. *)
Theorem decode_view_cases (mem : Memory) (raw_pkt len : Z) (s s' : State)
        (ret : bool) :
  run mem raw_pkt len s = Some (ret, s') ->
  (data (p s') = data (p s) /\ dsize (p s') = dsize (p s)) \/
  (ret = false /\ data (p s') = raw_pkt /\ dsize (p s') = wrap16 len /\
   packet_flags (p s') = packet_flags (p s)) \/
  (ret = true /\ data (p s') = raw_pkt + 8 /\
   packet_flags (p s') = Z.lor (packet_flags (p s)) PKT_TRUST).
Proof.
  intros Hrun. by_decode_cases mem raw_pkt len s; rewrite Hr in Hrun;
    try discriminate; apply some_pair_inv in Hrun as [<- <-].
  - left. split; reflexivity.
  - right. left. repeat split.
  - destruct (pad <? len); [destruct (has_codec nh) |];
      cbv [packet_flags data dsize p];
      first [ left; split; reflexivity | right; right; repeat split ].
Qed.

(** A call never writes the thread-local counters. *)
Lemma decode_counts_eq (mem : Memory) (raw_pkt len : Z) (s s' : State)
      (ret : bool) :
  run mem raw_pkt len s = Some (ret, s') -> counts s' = counts s.
Proof.
  intros Hrun. by_decode_cases mem raw_pkt len s; rewrite Hr in Hrun;
    try discriminate; apply some_pair_inv in Hrun as [<- <-]; try reflexivity.
  destruct (pad <? len); [destruct (has_codec nh) |]; reflexivity.
Qed.

End DecodeMore.

(** ** Properties of the registration and statistics hooks *)

(** X10: [get_protocol_ids] keeps the ids already in the vector, in place,
    and adds one occurrence of 50 and of no other id: it neither removes nor
    deduplicates. *)
Theorem get_protocol_ids_count (v : list Z) (id : Z) :
  firstn (List.length v) (get_protocol_ids v) = v /\
  List.length (get_protocol_ids v) = S (List.length v) /\
  count_occ Z.eq_dec (get_protocol_ids v) id
  = (count_occ Z.eq_dec v id + (if (id =? 50)%Z then 1 else 0))%nat.
Proof.
  unfold get_protocol_ids. split; [| split].
  - rewrite firstn_app, Nat.sub_diag, firstn_all. simpl. apply app_nil_r.
  - rewrite length_app. simpl. lia.
  - rewrite count_occ_app. f_equal. unfold ESP_PROT_ID. cbn [count_occ].
    destruct (Z.eq_dec 50 id) as [<- | Hne].
    + reflexivity.
    + destruct (Z.eqb_spec id 50) as [-> | _]; [contradiction | reflexivity].
Qed.

Lemma wrap64_add_0 (z : Z) : wrap64 (wrap64 z + 0) = wrap64 z.
Proof.
  unfold wrap64. rewrite Z.add_0_r. apply Z.mod_mod. discriminate.
Qed.

(** X11: [sum] adds each thread-local counter into its total modulo 2^64
    and zeroes the thread-local block, so a second [sum] right after the
    first changes nothing. *)
Theorem sum_folds_once (st : Pegs) :
  t_counts (sum st) = mkCdPegs 0 0 /\
  processed (gcounts (sum st))
  = wrap64 (processed (gcounts st) + processed (t_counts st)) /\
  discards (gcounts (sum st))
  = wrap64 (discards (gcounts st) + discards (t_counts st)) /\
  sum (sum st) = sum st.
Proof.
  destruct st as [[tp td] [gp gd]].
  repeat split.
  unfold sum. cbn [gcounts t_counts pegs_array processed discards
                   List.length peg_names sum_stats array_pegs nth].
  rewrite !wrap64_add_0. reflexivity.
Qed.

Section WorkerFacts.

Variable ScESPDecoding : bool.
Variable has_codec : Z -> bool.
Variable PKT_TRUST : Z.
Variable PKT_UNSURE_ENCAP : Z.
Variable DECODE_ESP_HEADER_TRUNC : Z.

Local Abbreviation work :=
  (do_calls ScESPDecoding has_codec PKT_TRUST PKT_UNSURE_ENCAP
            DECODE_ESP_HEADER_TRUNC).
Local Abbreviation step :=
  (do_call ScESPDecoding has_codec PKT_TRUST PKT_UNSURE_ENCAP
           DECODE_ESP_HEADER_TRUNC).

Lemma do_call_total (c : Call) (s s' : State) (g g' : CdPegs) :
  step c (s, g) = Some (s', g') ->
  peg_total (processed g') (processed (counts s'))
  = peg_total (processed g) (processed (counts s)) /\
  peg_total (discards g') (discards (counts s'))
  = peg_total (discards g) (discards (counts s)).
Proof.
  destruct c as [mem raw_pkt len |]; cbn [do_call].
  - destruct (decode _ _ _ _ _ mem raw_pkt len s) as [[ret s1] |] eqn:Hd;
      [| discriminate].
    intros H. apply some_pair_inv in H as [<- <-].
    rewrite (decode_counts_eq _ _ _ _ _ mem raw_pkt len s s1 ret Hd).
    split; reflexivity.
  - intros H. apply some_pair_inv in H as [<- <-].
    destruct (counts s) as [cp cd]. destruct g as [gp gd].
    cbv [counts t_counts gcounts sum pegs_array processed discards
         List.length peg_names sum_stats array_pegs nth peg_total].
    rewrite !wrap64_add_0. split; reflexivity.
Qed.

Lemma do_call_zero (c : Call) (s s' : State) (g g' : CdPegs) :
  counts s = mkCdPegs 0 0 -> g = mkCdPegs 0 0 ->
  step c (s, g) = Some (s', g') ->
  counts s' = mkCdPegs 0 0 /\ g' = mkCdPegs 0 0.
Proof.
  intros Hc Hg. destruct c as [mem raw_pkt len |]; cbn [do_call].
  - destruct (decode _ _ _ _ _ mem raw_pkt len s) as [[ret s1] |] eqn:Hd;
      [| discriminate].
    intros H. apply some_pair_inv in H as [<- <-].
    rewrite (decode_counts_eq _ _ _ _ _ mem raw_pkt len s s1 ret Hd).
    split; assumption.
  - intros H. apply some_pair_inv in H as [<- <-].
    rewrite Hc, Hg. split; reflexivity.
Qed.

(** X12: no sequence of [decode] and [sum] calls changes, for either
    counter, the total plus the thread-local count modulo 2^64: [sum] only
    moves counts into the totals and [decode] adds none. *)
Theorem do_calls_conserve_pegs (cs : list Call) (s s' : State)
        (g g' : CdPegs) :
  work cs (s, g) = Some (s', g') ->
  peg_total (processed g') (processed (counts s'))
  = peg_total (processed g) (processed (counts s)) /\
  peg_total (discards g') (discards (counts s'))
  = peg_total (discards g) (discards (counts s)).
Proof.
  revert s g. induction cs as [| c cs IH]; intros s g; cbn [do_calls].
  - intros H. apply some_pair_inv in H as [<- <-]. split; reflexivity.
  - destruct (step c (s, g)) as [[s1 g1] |] eqn:Hc; [| discriminate].
    intros Hrest.
    destruct (IH s1 g1 Hrest) as [Hp Hd].
    destruct (do_call_total c s s1 g g1 Hc) as [Hp1 Hd1].
    split; congruence.
Qed.

(** X13: starting from the static initial values (all counters zero), the
    thread-local counters and the totals are still all zero after any
    sequence of [decode] and [sum] calls. *)
Theorem do_calls_pegs_stay_zero (cs : list Call) (s s' : State)
        (g g' : CdPegs) :
  counts s = mkCdPegs 0 0 -> g = mkCdPegs 0 0 ->
  work cs (s, g) = Some (s', g') ->
  counts s' = mkCdPegs 0 0 /\ g' = mkCdPegs 0 0.
Proof.
  revert s g. induction cs as [| c cs IH]; intros s g Hc Hg; cbn [do_calls].
  - intros H. apply some_pair_inv in H as [<- <-]. split; assumption.
  - destruct (step c (s, g)) as [[s1 g1] |] eqn:Hstep; [| discriminate].
    intros Hrest.
    destruct (do_call_zero c s s1 g g1 Hc Hg Hstep) as [Hc1 Hg1].
    exact (IH s1 g1 Hc1 Hg1 Hrest).
Qed.

End WorkerFacts.

(** ** The further properties at concrete packets *)

Lemma decode_reject_frame_witness :
  exists s',
    run_sample (esp_packet 0 x00 x00) 4096 14 fresh_state = Some (false, s') /\
    packet_flags (p s') = packet_flags (p fresh_state) /\
    lyr_len s' = lyr_len fresh_state /\
    next_prot_id s' = next_prot_id fresh_state /\
    (true = false -> s' = fresh_state) /\
    (true = true ->
     14 < 22 /\ data (p s') = 4096 /\ dsize (p s') = wrap16 14).
Proof.
  eexists. split; [reflexivity |].
  apply (decode_reject_frame true tcp_udp_registry 0x2000 0x400 294
           (esp_packet 0 x00 x00) 4096 14 fresh_state).
  reflexivity.
Defined.

Lemma decode_reads_two_bytes_witness :
  load (esp_packet 16 x02 x06) (4096 + 8 + (30 - 22))
  = load (mkMemory 4096 (repeat xff 16 ++ [x02; x06] ++ repeat xaa 12))
         (4096 + 8 + (30 - 22)) /\
  load (esp_packet 16 x02 x06) (4096 + 8 + (30 - 22) + 1)
  = load (mkMemory 4096 (repeat xff 16 ++ [x02; x06] ++ repeat xaa 12))
         (4096 + 8 + (30 - 22) + 1) /\
  run_sample (esp_packet 16 x02 x06) 4096 30 fresh_state
  = run_sample (mkMemory 4096 (repeat xff 16 ++ [x02; x06] ++ repeat xaa 12))
               4096 30 fresh_state.
Proof.
  split; [reflexivity |]. split; [reflexivity |].
  apply (decode_reads_two_bytes true tcp_udp_registry 0x2000 0x400 294
           (esp_packet 16 x02 x06)
           (mkMemory 4096 (repeat xff 16 ++ [x02; x06] ++ repeat xaa 12))
           4096 30 fresh_state); reflexivity.
Defined.

Lemma decode_events_exact_witness :
  exists s',
    run_sample (esp_packet 0 x00 x00) 4096 14 fresh_state = Some (false, s') /\
    events s' = (if true && (14 <? 22)
                 then events fresh_state ++ [294]
                 else events fresh_state) /\
    (false = true -> events s' = events fresh_state).
Proof.
  eexists. split; [reflexivity |].
  apply (decode_events_exact true tcp_udp_registry 0x2000 0x400 294
           (esp_packet 0 x00 x00) 4096 14 fresh_state _ false).
  reflexivity.
Defined.

Lemma decode_success_ranges_witness :
  exists s',
    run_sample (esp_packet 16 xff x06) 4096 30 fresh_state = Some (true, s') /\
    22 <= lyr_len s' <= 277 /\
    lyr_len s' < 30 + 22 /\
    (next_prot_id s' = -1 \/ 0 <= next_prot_id s' <= 255).
Proof.
  eexists. split; [reflexivity |].
  apply (decode_success_ranges true tcp_udp_registry 0x2000 0x400 294
           (esp_packet 16 xff x06) 4096 30 fresh_state).
  reflexivity.
Defined.

Lemma decodable_view_in_bounds_iff_witness :
  true = true /\ 22 <= 22 <= 65535 /\
  load (esp_packet 8 x01 x06) (4096 + 8 + (22 - 22)) = Some 1 /\
  load (esp_packet 8 x01 x06) (4096 + 8 + (22 - 22) + 1) = Some 6 /\
  1 < 22 /\ tcp_udp_registry 6 = true /\
  exists s',
    run_sample (esp_packet 8 x01 x06) 4096 22 fresh_state = Some (true, s') /\
    (data (p s') + dsize (p s') <= 4096 + 22 <-> 22 + 1 <= 22) /\
    (22 + 1 <= 22 -> data (p s') + dsize (p s') = 4096 + 22 - 14 - 1) /\
    (22 < 22 + 1 -> dsize (p s') = 65536 + 22 - 22 - 1).
Proof.
  repeat (split; [first [reflexivity | lia] |]).
  apply (decodable_view_in_bounds_iff true tcp_udp_registry 0x2000 0x400 294
           (esp_packet 8 x01 x06) 4096 22 fresh_state 1 6);
    first [reflexivity | lia].
Defined.

Lemma decode_success_idempotent_witness :
  exists s',
    run_sample (esp_packet 16 x02 x06) 4096 30 fresh_state = Some (true, s') /\
    run_sample (esp_packet 16 x02 x06) 4096 30 s' = Some (true, s').
Proof.
  eexists. split; [reflexivity |].
  apply (decode_success_idempotent true tcp_udp_registry 0x2000 0x400 294
           (esp_packet 16 x02 x06) 4096 30 fresh_state).
  reflexivity.
Defined.

Lemma decode_view_cases_witness :
  exists s',
    run_sample (esp_packet 16 x02 x2f) 4096 30 fresh_state = Some (true, s') /\
    ((data (p s') = data (p fresh_state) /\
      dsize (p s') = dsize (p fresh_state)) \/
     (true = false /\ data (p s') = 4096 /\ dsize (p s') = wrap16 30 /\
      packet_flags (p s') = packet_flags (p fresh_state)) \/
     (true = true /\ data (p s') = 4096 + 8 /\
      packet_flags (p s') = Z.lor (packet_flags (p fresh_state)) 0x2000)).
Proof.
  eexists. split; [reflexivity |].
  apply (decode_view_cases true tcp_udp_registry 0x2000 0x400 294
           (esp_packet 16 x02 x2f) 4096 30 fresh_state _ true).
  reflexivity.
Defined.

Lemma decode_decodable_dsize_witness :
  true = true /\ 22 <= 22 /\
  load (esp_packet 8 x01 x06) (4096 + 8 + (22 - 22)) = Some 1 /\
  load (esp_packet 8 x01 x06) (4096 + 8 + (22 - 22) + 1) = Some 6 /\
  1 < 22 /\ tcp_udp_registry 6 = true /\
  exists s',
    run_sample (esp_packet 8 x01 x06) 4096 22 fresh_state = Some (true, s') /\
    dsize (p s') = (22 mod 65536 - (22 + 1)) mod 65536.
Proof.
  repeat (split; [first [reflexivity | lia] |]).
  apply (decode_decodable_dsize true tcp_udp_registry 0x2000 0x400 294
           (esp_packet 8 x01 x06) 4096 22 fresh_state 1 6);
    first [reflexivity | lia].
Defined.

Lemma do_calls_conserve_pegs_witness :
  exists s' g',
    do_calls true tcp_udp_registry 0x2000 0x400 294
             [CallDecode (esp_packet 16 x02 x06) 4096 30; CallSum;
              CallDecode (esp_packet 0 x00 x00) 4096 14; CallSum]
             (mkState (mkPacket 0 0 0) 0 0 [] (mkCdPegs 3 1), mkCdPegs 10 20)
    = Some (s', g') /\
    peg_total (processed g') (processed (counts s')) = peg_total 10 3 /\
    peg_total (discards g') (discards (counts s')) = peg_total 20 1.
Proof.
  do 2 eexists. split; [reflexivity |].
  apply (do_calls_conserve_pegs true tcp_udp_registry 0x2000 0x400 294
           [CallDecode (esp_packet 16 x02 x06) 4096 30; CallSum;
            CallDecode (esp_packet 0 x00 x00) 4096 14; CallSum]
           (mkState (mkPacket 0 0 0) 0 0 [] (mkCdPegs 3 1)) _
           (mkCdPegs 10 20) _).
  reflexivity.
Defined.

Lemma do_calls_pegs_stay_zero_witness :
  counts fresh_state = mkCdPegs 0 0 /\
  exists s' g',
    do_calls true tcp_udp_registry 0x2000 0x400 294
             [CallDecode (esp_packet 16 x02 x06) 4096 30; CallSum;
              CallDecode (esp_packet 0 x00 x00) 4096 14; CallSum]
             (fresh_state, mkCdPegs 0 0)
    = Some (s', g') /\
    counts s' = mkCdPegs 0 0 /\ g' = mkCdPegs 0 0.
Proof.
  split; [reflexivity |].
  do 2 eexists. split; [reflexivity |].
  apply (do_calls_pegs_stay_zero true tcp_udp_registry 0x2000 0x400 294
           [CallDecode (esp_packet 16 x02 x06) 4096 30; CallSum;
            CallDecode (esp_packet 0 x00 x00) 4096 14; CallSum]
           fresh_state _ (mkCdPegs 0 0) _); reflexivity.
Defined.

(** A buffer shorter than the announced length: the tail reads leave it. *)
Example decode_faults_on_short_memory :
  run_sample (esp_packet 0 x00 x00) 4096 30 fresh_state = None.
Proof.
  reflexivity.
Qed.
